(** * pyerz: file selection, comment stripping and paginated layout

    A shallow embedding of [pyerz/pyerz.py]: the [CodeFinder] that walks the
    source directories, the [CodeWriter] that drops blank and comment lines,
    wraps the remaining code lines and paginates them, and the parts of
    [main] that prepare their inputs.

    Python values are modelled as follows.
    - [str] is a list of Unicode code points ([N]); the literals used below
      are ASCII, where a code point is the byte.
    - [int] is [Z]; [len] is [Z.of_nat (length _)].
    - Exceptions are the [Raise] branch of [result].
    - The docx document is the list of body paragraphs appended to it, each
      with the text of its single run and whether a page break was added to
      that run.  Fonts and spacings are written to the paragraph and never
      read back; they are left out.
    - A file is the list of lines its reader yields. *)

From Stdlib Require Import ZArith NArith String Ascii Bool Lia List.
Import ListNotations.

Open Scope Z_scope.

(** ** Exceptions *)

Inductive exn : Type :=
| ZeroDivisionError
| IndexError
| ValueError.

Inductive result (A : Type) : Type :=
| Ok (a : A)
| Raise (e : exn).

Arguments Ok {A} a.
Arguments Raise {A} e.

Definition bind {A B : Type} (m : result A) (k : A -> result B) : result B :=
  match m with
  | Ok a => k a
  | Raise e => Raise e
  end.

Notation "x <- m ;; k" := (bind m (fun x => k))
  (at level 61, m at next level, right associativity).

(** ** Python strings *)

Module PyStr.

Definition char : Type := N.
Definition str : Type := list char.

(** An ASCII literal as a Python string. *)
Definition lit (s : string) : str := map N_of_ascii (list_ascii_of_string s).

Definition len (s : str) : Z := Z.of_nat (length s).

Definition char_eqb (a b : char) : bool := N.eqb a b.

Fixpoint eqb (a b : str) : bool :=
  match a, b with
  | [], [] => true
  | x :: a', y :: b' => char_eqb x y && eqb a' b'
  | _, _ => false
  end.

(** [str.isspace] for one character: the code points Python treats as
    whitespace in [strip], [lstrip] and [rstrip]. *)
Definition isspace (c : char) : bool :=
  (((9 <=? c) && (c <=? 13)) || ((28 <=? c) && (c <=? 32))
   || (c =? 133) || (c =? 160) || (c =? 5760)
   || ((8192 <=? c) && (c <=? 8202))
   || (c =? 8232) || (c =? 8233) || (c =? 8239) || (c =? 8287)
   || (c =? 12288))%N.

(** [s.lstrip()] *)
Fixpoint lstrip (s : str) : str :=
  match s with
  | [] => []
  | c :: s' => if isspace c then lstrip s' else s
  end.

(** [s.rstrip()] *)
Fixpoint rstrip (s : str) : str :=
  match s with
  | [] => []
  | c :: s' =>
      match rstrip s' with
      | [] => if isspace c then [] else [c]
      | r => c :: r
      end
  end.

(** [s.startswith(prefix)] *)
Fixpoint startswith (s prefix : str) {struct prefix} : bool :=
  match prefix with
  | [] => true
  | p :: prefix' =>
      match s with
      | [] => false
      | c :: s' => char_eqb c p && startswith s' prefix'
      end
  end.

(** [s.endswith(suffix)] *)
Definition endswith (s suffix : str) : bool :=
  (length suffix <=? length s)%nat
  && eqb (skipn (length s - length suffix) s) suffix.

(** [s.find(sub)]: the lowest index where [sub] occurs, [None] for -1. *)
Fixpoint find (s sub : str) {struct s} : option nat :=
  if startswith s sub then Some O
  else match s with
       | [] => None
       | _ :: s' => option_map S (find s' sub)
       end.

(** [sub in s] *)
Definition contains (s sub : str) : bool :=
  match find s sub with
  | Some _ => true
  | None => false
  end.

(** A slice bound, as Python clamps it for a string of length [n]. *)
Definition clamp (n i : Z) : Z :=
  if i <? 0 then Z.max 0 (n + i) else Z.min i n.

(** [s[lo:hi]] *)
Definition slice (s : str) (lo hi : Z) : str :=
  let lo' := clamp (len s) lo in
  let hi' := clamp (len s) hi in
  firstn (Z.to_nat (hi' - lo')) (skipn (Z.to_nat lo') s).

(** [s[lo:]] *)
Definition slice_from (s : str) (lo : Z) : str :=
  skipn (Z.to_nat (clamp (len s) lo)) s.

(** [s[:hi]] *)
Definition slice_to (s : str) (hi : Z) : str :=
  firstn (Z.to_nat (clamp (len s) hi)) s.

(** [s[i]], which raises [IndexError] out of range. *)
Definition item (s : str) (i : Z) : result char :=
  let n := len s in
  let j := if i <? 0 then n + i else i in
  if (0 <=? j) && (j <? n)
  then match nth_error s (Z.to_nat j) with
       | Some c => Ok c
       | None => Raise IndexError
       end
  else Raise IndexError.

End PyStr.

Import PyStr.

(** [list(range(n))] *)
Definition range (n : Z) : list Z := map Z.of_nat (seq 0 (Z.to_nat n)).

(** [math.ceil(a / b)] on integers, with the [ZeroDivisionError] of
    [a / b].  The quotient is the exact one: the rounding of the float
    division is not modelled (it changes nothing below 2^53). *)
Definition ceil_div (a b : Z) : result Z :=
  if b =? 0 then Raise ZeroDivisionError else Ok (- ((- a) / b)).

(** ** Module constants *)

Definition DEFAULT_INDIRS : list str := [lit "."].
Definition DEFAULT_EXTS : list str := [lit "py"].
Definition DEFAULT_COMMENT_CHARS : list str := [lit "#"; lit "//"].

Definition triple_double_quote : str := [34%N; 34%N; 34%N].
Definition triple_single_quote : str := lit "'''".

Definition DEFAULT_MULTILINE_COMMENT_PAIRS : list (str * str) :=
  [ (triple_double_quote, triple_double_quote);
    (triple_single_quote, triple_single_quote);
    (lit "/*", lit "*/") ].

(** [x if x else default] for a sequence argument that may be [None]. *)
Definition or_default {A : Type} (x : option (list A)) (default : list A)
  : list A :=
  match x with
  | Some (a :: l) => a :: l
  | _ => default
  end.

(** ** del_slash *)

Fixpoint del_slash (dirs : list str) : result (list str) :=
  match dirs with
  | [] => Ok []
  | dir_ :: dirs' =>
      last <- item dir_ (-1) ;;
      rest <- del_slash dirs' ;;
      Ok ((if char_eqb last 47%N then slice_to dir_ (-1) else dir_) :: rest)
  end.

(** ** The directory tree

    What [scandir] yields for a directory: its entries in the order of the
    platform, each a regular file or a directory with entries of its own.
    [entry.name] is the entry's name and [entry.path] is
    [os.path.join(indir, entry.name)] for the directory [indir] that was
    scanned.  Paths are POSIX paths. *)

#[warnings="-register-all"]
Inductive DirEntry : Type :=
| File (name : str)
| Dir (name : str) (entries : list DirEntry).

Definition entry_name (entry : DirEntry) : str :=
  match entry with
  | File name => name
  | Dir name _ => name
  end.

(** [os.path.join(a, b)] *)
Definition path_join (a b : str) : str :=
  if startswith b (lit "/") then b
  else if eqb a [] || endswith a (lit "/") then a ++ b
  else a ++ lit "/" ++ b.

(** ** CodeFinder *)

Record CodeFinder : Type := { exts : list str }.

Definition CodeFinder_init (exts : option (list str)) : CodeFinder :=
  {| exts := or_default exts [lit "py"] |}.

Definition is_code (self : CodeFinder) (file : str) : bool :=
  existsb (fun ext => endswith file ext) (exts self).

Definition is_hidden_file (file : str) : result bool :=
  c <- item file 0 ;;
  Ok (char_eqb c 46%N).

(** The [excludes] argument: [None], one path, or a list of paths. *)
Inductive excludes_arg : Type :=
| ExNone
| ExStr (exclude : str)
| ExList (excludes : list str).

(** [not excludes] *)
Definition excludes_falsy (excludes : excludes_arg) : bool :=
  match excludes with
  | ExNone => true
  | ExStr [] => true
  | ExStr (_ :: _) => false
  | ExList [] => true
  | ExList (_ :: _) => false
  end.

Definition should_be_excluded (file : str) (excludes : excludes_arg) : bool :=
  if excludes_falsy excludes then false
  else
    let excludes :=
      match excludes with
      | ExList l => l
      | ExStr s => [s]
      | ExNone => []
      end in
    existsb (fun exclude => startswith file exclude) excludes.

(** ** CodeWriter *)

(** A paragraph added to the document: the text of its run, and whether
    [run.add_break(WD_BREAK.PAGE)] was called on it. *)
Record Paragraph : Type := {
  run_text : str;
  page_break : bool
}.

(** The fields of a writer that the write pass reads or updates.
    [document] holds the paragraphs added since the writer was made. *)
Record CodeWriter : Type := {
  command_chars : list str;
  chars_in_line : Z;
  insert_page : bool;
  multiline_comment_pairs : list (str * str);
  current_comment_pair : option (str * str);
  document : list Paragraph;
  total_paragraph_count : Z
}.

Definition CodeWriter_init (command_chars : option (list str))
  (multiline_comment_pairs : option (list (str * str)))
  (chars_in_line : Z) (insert_page : bool) : CodeWriter :=
  {| command_chars := or_default command_chars DEFAULT_COMMENT_CHARS;
     chars_in_line := chars_in_line * 2;
     insert_page := insert_page;
     multiline_comment_pairs :=
       or_default multiline_comment_pairs DEFAULT_MULTILINE_COMMENT_PAIRS;
     current_comment_pair := None;
     document := [];
     total_paragraph_count := 0 |}.

(** [self.current_comment_pair = p] *)
Definition set_current_comment_pair (self : CodeWriter)
  (p : option (str * str)) : CodeWriter :=
  {| command_chars := command_chars self;
     chars_in_line := chars_in_line self;
     insert_page := insert_page self;
     multiline_comment_pairs := multiline_comment_pairs self;
     current_comment_pair := p;
     document := document self;
     total_paragraph_count := total_paragraph_count self |}.

Definition is_blank_line (line : str) : bool :=
  match line with
  | [] => true
  | _ :: _ => false
  end.

(** The loop of [is_comment_line] over the comment pairs, on the line
    already stripped: [None] when no start delimiter is in the line,
    otherwise what the method returns and the writer it leaves.
    [PyStr.find] gives both [start_char in line] and
    [line.index(start_char)]. *)
Fixpoint scan_multiline_pairs (self : CodeWriter) (pairs : list (str * str))
  (line : str) : option (bool * CodeWriter) :=
  match pairs with
  | [] => None
  | (start_char, end_char) :: pairs' =>
      match PyStr.find line start_char with
      | Some index =>
          if contains (slice_from line (Z.of_nat index + len start_char))
                      end_char
          then Some (true, self)
          else Some (true, set_current_comment_pair self
                             (Some (start_char, end_char)))
      | None => scan_multiline_pairs self pairs' line
      end
  end.

Definition is_comment_line (self : CodeWriter) (line : str)
  : bool * CodeWriter :=
  let line := lstrip line in
  match current_comment_pair self with
  | Some (_, end_char) =>
      if contains line end_char
      then (true, set_current_comment_pair self None)
      else (true, self)
  | None =>
      match scan_multiline_pairs self (multiline_comment_pairs self) line with
      | Some r => r
      | None =>
          (existsb (fun comment_char => startswith line comment_char)
                   (command_chars self),
           self)
      end
  end.

(** The text of fragment [i] of [line]. *)
Definition line_part (self : CodeWriter) (line : str) (i : Z) : str :=
  let start := i * chars_in_line self in
  let remain := len line - start in
  if remain >=? chars_in_line self
  then slice line start (start + chars_in_line self - 1)
  else slice_from line start.

(** The body of the loop over [range(math.ceil(...))]: one paragraph. *)
Definition add_fragment (line : str) (self : CodeWriter) (i : Z)
  : CodeWriter :=
  let count := total_paragraph_count self + 1 in
  {| command_chars := command_chars self;
     chars_in_line := chars_in_line self;
     insert_page := insert_page self;
     multiline_comment_pairs := multiline_comment_pairs self;
     current_comment_pair := current_comment_pair self;
     document :=
       document self
       ++ [ {| run_text := line_part self line i;
               page_break := (count mod 50 =? 0) && insert_page self |} ];
     total_paragraph_count := count |}.

(** The layout of a code line: the loop over its fragments. *)
Definition write_code_line (self : CodeWriter) (line : str)
  : result CodeWriter :=
  n <- ceil_div (len line) (chars_in_line self) ;;
  Ok (fold_left (add_fragment line) (range n) self).

(** The body of the loop of [write_file] over the lines of the file. *)
Definition write_line (self : CodeWriter) (line : str) : result CodeWriter :=
  let line := rstrip line in
  if is_blank_line line then Ok self
  else
    let (is_comment, self) := is_comment_line self line in
    if is_comment then Ok self
    else write_code_line self line.

Fixpoint write_lines (self : CodeWriter) (lines : list str)
  : result CodeWriter :=
  match lines with
  | [] => Ok self
  | line :: lines' =>
      self <- write_line self line ;;
      write_lines self lines'
  end.

(** [self.write_file(file)], the file given by its lines. *)
Definition write_file (self : CodeWriter) (file : list str)
  : result CodeWriter :=
  write_lines (set_current_comment_pair self None) file.

(** [for file in files: writer.write_file(file)] *)
Fixpoint write_files (writer : CodeWriter) (files : list (list str))
  : result CodeWriter :=
  match files with
  | [] => Ok writer
  | file :: files' =>
      writer <- write_file writer file ;;
      write_files writer files'
  end.

(** ** main: the writer *)

(** The multi-line comment configuration of [main]. *)
Definition multiline_pairs (multiline_starts multiline_ends : list str)
  : option (list (str * str)) :=
  match multiline_starts, multiline_ends with
  | _ :: _, _ :: _ =>
      if (length multiline_starts =? length multiline_ends)%nat
      then Some (combine multiline_starts multiline_ends)
      else None
  | _, _ => None
  end.

(** The writer that [main] makes from its options. *)
Definition main_writer (comment_chars multiline_starts multiline_ends : list str)
  (chars_in_line : Z) (insert_page : bool) : CodeWriter :=
  let comment_chars :=
    match comment_chars with
    | [] => DEFAULT_COMMENT_CHARS
    | _ => comment_chars
    end in
  CodeWriter_init (Some comment_chars)
                  (multiline_pairs multiline_starts multiline_ends)
                  chars_in_line insert_page.

(** ** The walk and the run *)

Section Walk.

(** [os.path.abspath], which depends on the working directory. *)
Variable abspath : str -> str.

(** One round of the loop of [find] over [scandir(indir)]: the files that
    [entry] adds to [files]. *)
Fixpoint find_entry (self : CodeFinder) (indir : str) (excludes : excludes_arg)
  (entry : DirEntry) {struct entry} : result (list str) :=
  let entry_path := abspath (path_join indir (entry_name entry)) in
  hidden <- is_hidden_file (entry_name entry) ;;
  if hidden then Ok []
  else if should_be_excluded entry_path excludes then Ok []
  else
    match entry with
    | File name => Ok (if is_code self name then [entry_path] else [])
    | Dir _ entries =>
        (fix loop (entries : list DirEntry) : result (list str) :=
           match entries with
           | [] => Ok []
           | e :: entries' =>
               found <- find_entry self entry_path excludes e ;;
               files <- loop entries' ;;
               Ok (found ++ files)
           end) entries
    end.

(** [self.find(indir, excludes)] where [scandir(indir)] yields [entries]. *)
Fixpoint find (self : CodeFinder) (indir : str) (entries : list DirEntry)
  (excludes : excludes_arg) : result (list str) :=
  match entries with
  | [] => Ok []
  | e :: entries' =>
      found <- find_entry self indir excludes e ;;
      files <- find self indir entries' excludes ;;
      Ok (found ++ files)
  end.

(** ** main: the list of files *)

(** What [scandir] yields for each of the root directories. *)
Variable scandir : str -> list DirEntry.

(** [[file for indir in indirs for file in finder.find(indir, excludes)]] *)
Fixpoint walk_indirs (finder : CodeFinder) (indirs : list str)
  (excludes : list str) : result (list str) :=
  match indirs with
  | [] => Ok []
  | indir :: indirs' =>
      found <- find finder indir (scandir indir) (ExList excludes) ;;
      files <- walk_indirs finder indirs' excludes ;;
      Ok (found ++ files)
  end.

(** [x in files] *)
Definition list_contains (files : list str) (x : str) : bool :=
  existsb (fun f => eqb f x) files.

(** [files.remove(x)]: the first item equal to [x] goes; [ValueError] when
    there is none. *)
Fixpoint list_remove (files : list str) (x : str) : result (list str) :=
  match files with
  | [] => Raise ValueError
  | f :: files' =>
      if eqb f x then Ok files'
      else rest <- list_remove files' x ;; Ok (f :: rest)
  end.

(** The [if entry_file:] block of [main]. *)
Definition place_entry_file (entry_file : option str) (files : list str)
  : result (list str) :=
  match entry_file with
  | Some (c :: p) =>
      let entry_path := abspath (c :: p) in
      files <- (if list_contains files entry_path
                then list_remove files entry_path
                else Ok files) ;;
      Ok (entry_path :: files)
  | _ => Ok files
  end.

(** [main] up to the list of files handed to the writer. *)
Definition select_files (indirs exts excludes : list str)
  (entry_file : option str) : result (list str) :=
  let indirs := match indirs with [] => DEFAULT_INDIRS | _ => indirs end in
  let exts := match exts with [] => DEFAULT_EXTS | _ => exts end in
  let indirs := map abspath indirs in
  excludes <- del_slash (match excludes with
                         | [] => []
                         | _ => map abspath excludes
                         end) ;;
  let finder := CodeFinder_init (Some exts) in
  files <- walk_indirs finder indirs excludes ;;
  place_entry_file entry_file files.

(** The lines that reading a file yields. *)
Variable read_lines : str -> list str.


End Walk.

(** ** Vocabulary of the properties *)

(** How many times [x] is in [files]. *)
Definition count_path (files : list str) (x : str) : nat :=
  length (filter (fun f => eqb f x) files).

(** The files other than [x], in their order. *)
Definition others (files : list str) (x : str) : list str :=
  filter (fun f => negb (eqb f x)) files.

(** [is_comment_line] called on the lines in turn: what each call returns
    and the writer after the last. *)
Fixpoint scan_lines (self : CodeWriter) (lines : list str)
  : list bool * CodeWriter :=
  match lines with
  | [] => ([], self)
  | line :: lines' =>
      let (is_comment, self) := is_comment_line self line in
      let (rest, self) := scan_lines self lines' in
      (is_comment :: rest, self)
  end.



(** The positions, counted from [first], of the paragraphs that carry a
    page break. *)
Fixpoint page_break_positions (first : Z) (paragraphs : list Paragraph)
  : list Z :=
  match paragraphs with
  | [] => []
  | p :: paragraphs' =>
      (if page_break p then [first] else [])
      ++ page_break_positions (first + 1) paragraphs'
  end.


(** ** Concrete trees

    Paths that are absolute and normalised, which [abspath] returns as they
    are. *)

Module Fixture.

Definition abspath (p : str) : str := p.

(** [/root] with a directory [skip] and two files beside it. *)
Definition skip_tree : list DirEntry :=
  [ Dir (lit "skip") [File (lit "z.py")];
    File (lit "skipme.py");
    File (lit "keep.py") ].

(** [/src] with files whose names end in [py] with and without a dot. *)
Definition suffix_tree : list DirEntry :=
  [ File (lit "numpy");
    File (lit "x.py");
    File (lit "y.txt");
    File (lit "happy") ].

(** [/proj] with the entry file among its files. *)
Definition proj_tree : list DirEntry :=
  [ File (lit "a.py");
    File (lit "main.py");
    File (lit "b.py") ].

Definition scandir (p : str) : list DirEntry :=
  if eqb p (lit "/root") then skip_tree
  else if eqb p (lit "/src") then suffix_tree
  else if eqb p (lit "/proj") then proj_tree
  else [].

(** A writer in the middle of a run: one paragraph written, and the last
    file left a comment open. *)
Definition open_writer : CodeWriter :=
  {| command_chars := DEFAULT_COMMENT_CHARS;
     chars_in_line := 60;
     insert_page := true;
     multiline_comment_pairs := DEFAULT_MULTILINE_COMMENT_PAIRS;
     current_comment_pair := Some (lit "/*", lit "*/");
     document := [ {| run_text := lit "x = 1"; page_break := false |} ];
     total_paragraph_count := 1 |}.

(** Two files of 60 and 41 code lines, each line one fragment. *)
Definition two_files : list (list str) :=
  [ repeat (lit "x = 1") 60; repeat (lit "y = 2") 41 ].

End Fixture.

(** ** Vocabulary of the properties of the walk and of the write pass *)

(** Every entry of the tree under [entry] has a name. *)
Fixpoint names_nonempty (entry : DirEntry) : bool :=
  match entry with
  | File name => negb (eqb name [])
  | Dir name entries => negb (eqb name []) && forallb names_nonempty entries
  end.

(** [path] is the path of a file of the tree under [entry], an entry of the
    directory [indir], that the walk reaches and keeps: the file and every
    directory above it are neither hidden nor excluded, and the name of the
    file ends with an extension. *)
Inductive selected (abspath : str -> str) (self : CodeFinder)
  (excludes : excludes_arg) : str -> DirEntry -> str -> Prop :=
| selected_file (indir name : str) :
    is_hidden_file name = Ok false ->
    should_be_excluded (abspath (path_join indir name)) excludes = false ->
    is_code self name = true ->
    selected abspath self excludes indir (File name)
             (abspath (path_join indir name))
| selected_in_dir (indir name : str) (entries : list DirEntry)
    (entry : DirEntry) (path : str) :
    is_hidden_file name = Ok false ->
    should_be_excluded (abspath (path_join indir name)) excludes = false ->
    In entry entries ->
    selected abspath self excludes (abspath (path_join indir name)) entry path ->
    selected abspath self excludes indir (Dir name entries) path.

(** The walk of one entry whose names are not empty returns, and returns
    the selected paths of the entry. *)
Definition entry_walk_ok (abspath : str -> str) (self : CodeFinder)
  (excludes : excludes_arg) (entry : DirEntry) : Prop :=
  names_nonempty entry = true ->
  forall indir,
    exists files,
      find_entry abspath self indir excludes entry = Ok files
      /\ forall path,
           In path files <-> selected abspath self excludes indir entry path.


(** The line, stripped, starts with one of the single-line comment
    prefixes. *)
Definition comment_prefixed (self : CodeWriter) (line : str) : bool :=
  existsb (fun comment_char => startswith (lstrip line) comment_char)
          (command_chars self).

(** A raw line that is blank or starts with a comment prefix. *)
Definition blank_or_prefixed (self : CodeWriter) (raw : str) : bool :=
  is_blank_line (rstrip raw) || comment_prefixed self (rstrip raw).

(** What [del_slash] returns for one directory that is not empty: the
    directory without its last character when that is a slash, the
    directory itself otherwise. *)
Definition del_slash_one_spec (dir_ out : str) : Prop :=
  if endswith dir_ (lit "/") then dir_ = out ++ lit "/" else out = dir_.

(** ** More concrete inputs *)

Module Sample.

(** A tree with a hidden directory, a nested directory and a directory
    whose name ends like an extension. *)
Definition tree : list DirEntry :=
  [ Dir (lit ".git") [File (lit "hook.py")];
    Dir (lit "pkg") [File (lit "core.py"); File (lit "notes.txt");
                     Dir (lit "sub") [File (lit "deep.py")]];
    Dir (lit "old.py") [File (lit "legacy.py")];
    File (lit "setup.py") ].

Definition scandir (p : str) : list DirEntry :=
  if eqb p (lit "/work") then tree else [].

(** A file: a docstring, a comment, code, and a block comment left open. *)
Definition file : list str :=
  [ lit "# -*- coding: utf-8 -*-";
    lit "";
    lit "def f(x):";
    lit "    return x  # same";
    lit "/* the rest is never closed";
    lit "y = 2" ].


End Sample.

(** * Properties *)

(** ** Strings *)

Lemma char_eqb_eq (a b : char) : char_eqb a b = true <-> a = b.
Proof. unfold char_eqb. apply N.eqb_eq. Qed.

Lemma eqb_eq (a b : str) : eqb a b = true <-> a = b.
Proof.
  revert b. induction a as [|x a IH]; intros [|y b]; simpl;
    try (split; [discriminate | discriminate]); [tauto|].
  rewrite andb_true_iff, char_eqb_eq, IH.
  split; [intros [-> ->]; reflexivity | intros [= -> ->]; auto].
Qed.

Lemma eqb_refl (a : str) : eqb a a = true.
Proof. apply eqb_eq. reflexivity. Qed.

Lemma eqb_neq (a b : str) : eqb a b = false <-> a <> b.
Proof.
  rewrite <- eqb_eq. destruct (eqb a b); split; congruence.
Qed.

(** [startswith] is the prefix relation. *)
Lemma startswith_prefix (s prefix : str) :
  startswith s prefix = true <-> exists rest, s = prefix ++ rest.
Proof.
  revert s. induction prefix as [|p prefix IH]; intros s; simpl.
  - split; [intros _; exists s; reflexivity | reflexivity].
  - destruct s as [|c s].
    + split; [discriminate | intros [rest H]; discriminate].
    + rewrite andb_true_iff, char_eqb_eq, IH. split.
      * intros [-> [rest ->]]. exists rest. reflexivity.
      * intros [rest [= -> ->]]. split; [reflexivity | exists rest; reflexivity].
Qed.

(** [endswith] is the suffix relation. *)
Lemma endswith_suffix (s suffix : str) :
  endswith s suffix = true <-> exists front, s = front ++ suffix.
Proof.
  unfold endswith. rewrite andb_true_iff, Nat.leb_le, eqb_eq. split.
  - intros [_ H]. exists (firstn (length s - length suffix) s).
    pose proof (firstn_skipn (length s - length suffix) s) as E.
    rewrite H in E. symmetry. exact E.
  - intros [front ->]. rewrite length_app. split; [lia|].
    replace (length front + length suffix - length suffix)%nat
      with (length front + 0)%nat by lia.
    rewrite skipn_app, Nat.add_0_r, skipn_all.
    replace (length front - length front)%nat with 0%nat by lia.
    reflexivity.
Qed.

(** A line of whitespace only is empty once stripped on the right. *)
Lemma rstrip_whitespace (s : str) :
  forallb isspace s = true -> rstrip s = [].
Proof.
  induction s as [|c s IH]; simpl; [reflexivity|].
  rewrite andb_true_iff. intros [Hc Hs].
  rewrite (IH Hs), Hc. reflexivity.
Qed.

(** ** File selection *)

Lemma should_be_excluded_list (file : str) (excludes : list str) :
  should_be_excluded file (ExList excludes)
  = existsb (fun exclude => startswith file exclude) excludes.
Proof. destruct excludes; reflexivity. Qed.

(** C5.  Exclusion is a raw prefix test on the path, with no check that a
    separator follows the prefix: a path is excluded by a list of entries
    exactly when one of the entries is a prefix of it, and by a single entry
    exactly when that entry is a prefix of it.  With the exclusion
    [/root/skip], both [/root/skip/z.py] and [/root/skipme.py] are excluded,
    also in a run of the file selection over [/root]. *)
Theorem exclusion_is_raw_prefix_test :
  (forall file excludes,
      should_be_excluded file (ExList excludes) = true
      <-> exists exclude rest, In exclude excludes /\ file = exclude ++ rest)
  /\ (forall file exclude,
        should_be_excluded file (ExList [exclude]) = startswith file exclude)
  /\ (forall file c exclude,
        should_be_excluded file (ExStr (c :: exclude))
        = startswith file (c :: exclude))
  /\ should_be_excluded (lit "/root/skip/z.py") (ExList [lit "/root/skip"])
     = true
  /\ should_be_excluded (lit "/root/skipme.py") (ExList [lit "/root/skip"])
     = true
  /\ select_files Fixture.abspath Fixture.scandir
       [lit "/root"] [lit "py"] [lit "/root/skip"] None
     = Ok [lit "/root/keep.py"].
Proof.
  split; [|split; [|split; [|repeat split]]].
  - intros file excludes. rewrite should_be_excluded_list, existsb_exists.
    split.
    + intros [exclude [Hin Hpre]]. apply startswith_prefix in Hpre.
      destruct Hpre as [rest ->]. exists exclude, rest. auto.
    + intros [exclude [rest [Hin ->]]]. exists exclude. split; [exact Hin|].
      apply startswith_prefix. exists rest. reflexivity.
  - intros file exclude. rewrite should_be_excluded_list. simpl.
    apply orb_false_r.
  - intros file c exclude. unfold should_be_excluded. simpl.
    apply orb_false_r.
Qed.

Lemma is_code_suffix (self : CodeFinder) (file : str) :
  is_code self file = true
  <-> exists ext front, In ext (exts self) /\ file = front ++ ext.
Proof.
  unfold is_code. rewrite existsb_exists. split.
  - intros [ext [Hin Hsuf]]. apply endswith_suffix in Hsuf.
    destruct Hsuf as [front ->]. exists ext, front. auto.
  - intros [ext [front [Hin ->]]]. exists ext. split; [exact Hin|].
    apply endswith_suffix. exists front. reflexivity.
Qed.

(** C10.  Extension matching is a bare suffix test on the file name: for a
    finder made with the extensions [e :: l], [is_code] holds of a name
    exactly when the name ends with one of them, whatever comes before the
    suffix.  With the extensions [py], the names [numpy] and [happy] are
    code files and the walk selects them. *)
Theorem is_code_is_bare_suffix_test :
  (forall e l file,
      is_code (CodeFinder_init (Some (e :: l))) file = true
      <-> exists ext front, In ext (e :: l) /\ file = front ++ ext)
  /\ is_code (CodeFinder_init (Some [lit "py"])) (lit "numpy") = true
  /\ is_code (CodeFinder_init (Some [lit "py"])) (lit "happy") = true
  /\ select_files Fixture.abspath Fixture.scandir
       [lit "/src"] [lit "py"] [] None
     = Ok [lit "/src/numpy"; lit "/src/x.py"; lit "/src/happy"].
Proof.
  split; [|repeat split].
  intros e l file. apply is_code_suffix.
Qed.

Lemma list_contains_In (files : list str) (x : str) :
  list_contains files x = true <-> In x files.
Proof.
  unfold list_contains. rewrite existsb_exists. split.
  - intros [f [Hin Heq]]. apply eqb_eq in Heq. subst. exact Hin.
  - intros Hin. exists x. split; [exact Hin | apply eqb_refl].
Qed.

(** [files.remove(x)] on a list that holds [x] takes out its first
    occurrence and nothing else. *)
Lemma list_remove_first (files : list str) (x : str) :
  In x files ->
  exists before after,
    files = before ++ x :: after /\ ~ In x before
    /\ list_remove files x = Ok (before ++ after).
Proof.
  induction files as [|f files IH]; simpl; [intros []|].
  intros Hin. destruct (eqb f x) eqn:E.
  - apply eqb_eq in E. subst f. exists [], files. simpl. auto.
  - apply eqb_neq in E. destruct Hin as [Hfx | Hin]; [contradiction|].
    destruct (IH Hin) as [before [after [-> [Hnot ->]]]].
    exists (f :: before), after. simpl. repeat split.
    intros [H | H]; [apply E; exact H | apply Hnot; exact H].
Qed.

Lemma count_path_app (a b : list str) (x : str) :
  count_path (a ++ b) x = (count_path a x + count_path b x)%nat.
Proof. unfold count_path. rewrite filter_app, length_app. reflexivity. Qed.

Lemma count_path_absent (files : list str) (x : str) :
  ~ In x files -> count_path files x = 0%nat.
Proof.
  unfold count_path. induction files as [|f files IH]; simpl; [reflexivity|].
  intros Hnot. destruct (eqb f x) eqn:E.
  - apply eqb_eq in E. exfalso. apply Hnot. left. exact E.
  - apply IH. intros H. apply Hnot. right. exact H.
Qed.

Lemma others_app (a b : list str) (x : str) :
  others (a ++ b) x = others a x ++ others b x.
Proof. unfold others. apply filter_app. Qed.

(** The entry file listed twice: with the same directory given twice the
    walk finds [/proj/main.py] twice, one occurrence is removed, and the
    final list holds the path at index 0 and again at index 4. *)
Lemma entry_file_listed_twice :
  select_files Fixture.abspath Fixture.scandir
    [lit "/proj"; lit "/proj"] [] [] (Some (lit "/proj/main.py"))
  = Ok [ lit "/proj/main.py"; lit "/proj/a.py"; lit "/proj/b.py";
         lit "/proj/a.py"; lit "/proj/main.py"; lit "/proj/b.py" ]
  /\ count_path
       [ lit "/proj/main.py"; lit "/proj/a.py"; lit "/proj/b.py";
         lit "/proj/a.py"; lit "/proj/main.py"; lit "/proj/b.py" ]
       (Fixture.abspath (lit "/proj/main.py"))
     <> 1%nat.
Proof. split; [reflexivity | vm_compute; discriminate]. Qed.

(** C7, amended.  With an entry file, the block of [main] returns a list
    whose index 0 is the absolute path of the entry file; what follows is
    the walk results with the first occurrence of that path taken out, or
    the walk results as they are when the path is not among them; the other
    files keep their order; and the path is in the final list as many times
    as in the walk results, once if it was not there: exactly once whenever
    the walk results hold it at most once. *)
Theorem entry_file_is_first (abspath : str -> str) (c : char) (p : str)
  (files : list str) :
  let entry_path := abspath (c :: p) in
  exists rest,
    place_entry_file abspath (Some (c :: p)) files = Ok (entry_path :: rest)
    /\ ((~ In entry_path files /\ rest = files)
        \/ (exists before after,
               files = before ++ entry_path :: after
               /\ ~ In entry_path before /\ rest = before ++ after))
    /\ others rest entry_path = others files entry_path
    /\ count_path (entry_path :: rest) entry_path
       = Nat.max 1 (count_path files entry_path)
    /\ ((count_path files entry_path <= 1)%nat ->
        count_path (entry_path :: rest) entry_path = 1%nat).
Proof.
  intros entry_path. unfold place_entry_file. fold entry_path.
  assert (Hhd : forall l, count_path (entry_path :: l) entry_path
                          = S (count_path l entry_path)).
  { intros l. unfold count_path. simpl. rewrite eqb_refl. reflexivity. }
  assert (Hoth : forall l, others (entry_path :: l) entry_path
                           = others l entry_path).
  { intros l. unfold others. simpl. rewrite eqb_refl. reflexivity. }
  destruct (list_contains files entry_path) eqn:E.
  - apply list_contains_In in E.
    destruct (list_remove_first files entry_path E)
      as [before [after [Hfiles [Hnot Hrem]]]].
    rewrite Hrem. unfold bind. exists (before ++ after).
    pose proof (count_path_absent before entry_path Hnot) as H0.
    split; [reflexivity|]. split; [right; exists before, after; auto|].
    rewrite Hfiles, !others_app, Hoth, !Hhd, !count_path_app, Hhd, H0.
    split; [reflexivity|]. split; lia.
  - assert (Hnot : ~ In entry_path files).
    { intros H. apply list_contains_In in H. congruence. }
    unfold bind. exists files.
    pose proof (count_path_absent files entry_path Hnot) as H0.
    split; [reflexivity|]. split; [left; auto|].
    rewrite Hhd, H0. split; [reflexivity|]. split; lia.
Qed.

(** ** The writer made by main *)

(** C8.  The configured start and end delimiters become the pair table of
    the writer only when both lists are non-empty and of the same length,
    and then zipped in order; in every other case the writer is made with
    the three built-in pairs.  The writer is made in all cases. *)
Theorem multiline_config_fallback (comment_chars starts ends : list str)
  (chars : Z) (page : bool) :
  multiline_comment_pairs (main_writer comment_chars starts ends chars page)
  = (if negb (length starts =? 0)%nat && negb (length ends =? 0)%nat
        && (length starts =? length ends)%nat
     then combine starts ends
     else [ (triple_double_quote, triple_double_quote);
            (triple_single_quote, triple_single_quote);
            (lit "/*", lit "*/") ]).
Proof.
  unfold main_writer, multiline_pairs. simpl.
  destruct starts as [|s starts], ends as [|e ends]; simpl; try reflexivity.
  destruct (length starts =? length ends)%nat; reflexivity.
Qed.

(** ** Blank lines and comments *)

(** C4.  A line made of whitespace only (or empty) is blank once stripped,
    whatever the writer: the loop of [write_file] goes on to the next line
    with the writer as it was, so nothing is emitted and the comment state
    is untouched, open or not. *)
Theorem whitespace_line_is_blank (self : CodeWriter) (line : str)
  (Hspace : forallb isspace line = true) :
  is_blank_line (rstrip line) = true
  /\ write_line self line = Ok self
  /\ (forall lines, write_lines self (line :: lines) = write_lines self lines).
Proof.
  assert (Hline : write_line self line = Ok self).
  { unfold write_line. rewrite (rstrip_whitespace line Hspace). reflexivity. }
  split; [rewrite (rstrip_whitespace line Hspace); reflexivity|].
  split; [exact Hline|].
  intros lines. simpl. rewrite Hline. reflexivity.
Qed.

Lemma whitespace_line_is_blank_witness :
  let self := set_current_comment_pair (CodeWriter_init None None 30 false)
                (Some (lit "/*", lit "*/")) in
  let line := [32%N; 9%N; 32%N; 10%N] in
  forallb isspace line = true
  /\ current_comment_pair self = Some (lit "/*", lit "*/")
  /\ is_blank_line (rstrip line) = true
  /\ write_line self line = Ok self
  /\ (forall lines, write_lines self (line :: lines) = write_lines self lines).
Proof.
  intros self line.
  split; [reflexivity|]. split; [reflexivity|].
  apply (whitespace_line_is_blank self line). reflexivity.
Defined.

Lemma scan_multiline_pairs_true (self : CodeWriter) (pairs : list (str * str))
  (line : str) (r : bool * CodeWriter) :
  scan_multiline_pairs self pairs line = Some r -> fst r = true.
Proof.
  induction pairs as [|[start_char end_char] pairs IH]; simpl; [discriminate|].
  destruct (PyStr.find line start_char); [|exact IH].
  destruct (contains _ end_char); intros [= <-]; reflexivity.
Qed.

(** A line that leaves the comment state open was classified a comment. *)
Lemma is_comment_line_opening (self : CodeWriter) (line : str)
  (pair : str * str) :
  current_comment_pair (snd (is_comment_line self line)) = Some pair ->
  fst (is_comment_line self line) = true.
Proof.
  unfold is_comment_line.
  destruct (current_comment_pair self) as [[start_char end_char]|] eqn:E.
  - destruct (contains (lstrip line) end_char); reflexivity.
  - destruct (scan_multiline_pairs self (multiline_comment_pairs self)
                (lstrip line)) as [r|] eqn:S.
    + intros _. exact (scan_multiline_pairs_true _ _ _ _ S).
    + simpl. rewrite E. discriminate.
Qed.

Lemma is_comment_line_open (self : CodeWriter) (start_char end_char : str)
  (line : str) :
  current_comment_pair self = Some (start_char, end_char) ->
  is_comment_line self line
  = (true,
     if contains (lstrip line) end_char
     then set_current_comment_pair self None
     else self).
Proof.
  intros E. unfold is_comment_line. rewrite E.
  destruct (contains (lstrip line) end_char); reflexivity.
Qed.

(** C3.  While the comment state of the writer is open, [is_comment_line]
    returns [True] for every line; a line that holds the end delimiter
    clears the state and is itself a comment, and a line that does not
    leaves the writer as it is; in the write pass no line read in that
    state adds a paragraph.  So when line k leaves the state open on a
    writer whose state was none, lines k+1 and k+2 do not hold the end
    delimiter and line k+3 does, the four lines are all comments and the
    state after line k+3 is none. *)
Theorem open_comment_lines_are_comments (self : CodeWriter)
  (start_char end_char : str)
  (Hopen : current_comment_pair self = Some (start_char, end_char)) :
  (forall line, fst (is_comment_line self line) = true)
  /\ (forall line,
        contains (lstrip line) end_char = true ->
        is_comment_line self line = (true, set_current_comment_pair self None)
        /\ current_comment_pair (snd (is_comment_line self line)) = None)
  /\ (forall line,
        contains (lstrip line) end_char = false ->
        is_comment_line self line = (true, self))
  /\ (forall raw,
        exists self',
          write_line self raw = Ok self'
          /\ document self' = document self
          /\ total_paragraph_count self' = total_paragraph_count self)
  /\ (forall before l0 l1 l2 l3,
        current_comment_pair before = None ->
        snd (is_comment_line before l0) = self ->
        contains (lstrip l1) end_char = false ->
        contains (lstrip l2) end_char = false ->
        contains (lstrip l3) end_char = true ->
        fst (scan_lines before [l0; l1; l2; l3]) = [true; true; true; true]
        /\ current_comment_pair (snd (scan_lines before [l0; l1; l2; l3]))
           = None).
Proof.
  pose proof (is_comment_line_open self start_char end_char) as Hstep.
  split; [|split; [|split; [|split]]].
  - intros line. rewrite (Hstep line Hopen). reflexivity.
  - intros line Hend. rewrite (Hstep line Hopen), Hend. split; reflexivity.
  - intros line Hend. rewrite (Hstep line Hopen), Hend. reflexivity.
  - intros raw. unfold write_line.
    destruct (is_blank_line (rstrip raw)); [exists self; auto|].
    rewrite (Hstep (rstrip raw) Hopen).
    destruct (contains (lstrip (rstrip raw)) end_char);
      eexists; repeat split.
  - intros before l0 l1 l2 l3 Hnone H0 H1 H2 H3.
    assert (Hfirst : fst (is_comment_line before l0) = true).
    { apply (is_comment_line_opening before l0 (start_char, end_char)).
      rewrite H0. exact Hopen. }
    cbn [scan_lines].
    destruct (is_comment_line before l0) as [b0 w0]. simpl in H0, Hfirst.
    subst w0 b0.
    rewrite (Hstep l1 Hopen), H1, (Hstep l2 Hopen), H2, (Hstep l3 Hopen), H3.
    split; reflexivity.
Qed.

Lemma open_comment_lines_are_comments_witness :
  let before := CodeWriter_init None None 30 false in
  let l0 := lit "  /* start of a comment" in
  let l1 := lit "x = 1" in
  let l2 := lit "" in
  let l3 := lit "end of it */ y = 2" in
  let self := snd (is_comment_line before l0) in
  current_comment_pair self = Some (lit "/*", lit "*/")
  /\ fst (scan_lines before [l0; l1; l2; l3]) = [true; true; true; true]
  /\ current_comment_pair (snd (scan_lines before [l0; l1; l2; l3])) = None.
Proof.
  intros before l0 l1 l2 l3 self.
  split; [reflexivity|].
  apply (open_comment_lines_are_comments self (lit "/*") (lit "*/")
           eq_refl);
    reflexivity.
Defined.

(** ** The write pass *)






Lemma scan_multiline_pairs_frame (self : CodeWriter)
  (pairs : list (str * str)) (line : str) (r : bool * CodeWriter) :
  scan_multiline_pairs self pairs line = Some r ->
  snd r = self \/ exists q, snd r = set_current_comment_pair self q.
Proof.
  induction pairs as [|[start_char end_char] pairs IH]; simpl; [discriminate|].
  destruct (PyStr.find line start_char); [|exact IH].
  destruct (contains _ end_char); intros [= <-]; simpl; eauto.
Qed.

(** [is_comment_line] changes nothing but the comment state. *)
Lemma is_comment_line_frame (self : CodeWriter) (line : str) :
  snd (is_comment_line self line) = self
  \/ exists q, snd (is_comment_line self line)
               = set_current_comment_pair self q.
Proof.
  unfold is_comment_line.
  destruct (current_comment_pair self) as [[start_char end_char]|].
  - destruct (contains (lstrip line) end_char); simpl; eauto.
  - destruct (scan_multiline_pairs self (multiline_comment_pairs self)
                (lstrip line)) as [r|] eqn:S.
    + exact (scan_multiline_pairs_frame _ _ _ _ S).
    + left. reflexivity.
Qed.


(** A line that is not a comment leaves the writer as it was. *)
Lemma is_comment_line_false (self : CodeWriter) (line : str) :
  fst (is_comment_line self line) = false ->
  snd (is_comment_line self line) = self.
Proof.
  unfold is_comment_line.
  destruct (current_comment_pair self) as [[start_char end_char]|].
  - destruct (contains (lstrip line) end_char); discriminate.
  - destruct (scan_multiline_pairs self (multiline_comment_pairs self)
                (lstrip line)) as [r|] eqn:S.
    + rewrite (scan_multiline_pairs_true _ _ _ _ S). discriminate.
    + reflexivity.
Qed.











(** The run of the two files of 60 and 41 lines from a new writer with
    pagination on: 101 paragraphs, page breaks on the 50th and the 100th. *)
Example two_files_run :
  match write_files (CodeWriter_init None None 30 true) Fixture.two_files with
  | Ok writer' =>
      length (document writer') = 101%nat
      /\ total_paragraph_count writer' = 101
      /\ page_break_positions 1 (document writer') = [50; 100]
  | Raise _ => False
  end.
Proof. vm_compute. repeat split. Qed.

(** ** Fragments of a code line *)









(** A line that is neither blank nor a comment goes to the layout with
    the writer as it was. *)
Lemma write_line_code (self : CodeWriter) (raw : str) :
  is_blank_line (rstrip raw) = false ->
  fst (is_comment_line self (rstrip raw)) = false ->
  write_line self raw = write_code_line self (rstrip raw).
Proof.
  intros Hblank Hcode. unfold write_line. rewrite Hblank.
  pose proof (is_comment_line_false self (rstrip raw) Hcode) as Hself.
  destruct (is_comment_line self (rstrip raw)) as [b self1].
  simpl in Hcode, Hself. subst. reflexivity.
Qed.







(** The line of ten characters at width 4: three paragraphs, the first
    two cut at three characters, the last with the rest. *)
Example ten_characters_at_width_4 :
  match write_line (CodeWriter_init None None 2 false) (lit "abcdefghij ") with
  | Ok self' =>
      map run_text (document self') = [lit "abc"; lit "efg"; lit "ij"]
  | Raise _ => False
  end.
Proof. reflexivity. Qed.

(** * Further properties *)

(** ** del_slash *)

(** The last character of a string that is not empty, and the string
    without it. *)
Lemma item_last (front : str) (c : char) :
  item (front ++ [c]) (-1) = Ok c /\ slice_to (front ++ [c]) (-1) = front.
Proof.
  unfold item, slice_to, clamp, len. rewrite length_app. cbn [length].
  destruct (Z.ltb_spec (-1) 0) as [_|H]; [|lia].
  replace (Z.of_nat (length front + 1) + -1) with (Z.of_nat (length front))
    by lia.
  destruct (Z.leb_spec 0 (Z.of_nat (length front))) as [_|H]; [|lia].
  destruct (Z.ltb_spec (Z.of_nat (length front))
              (Z.of_nat (length front + 1))) as [_|H]; [|lia].
  cbn [andb]. rewrite Nat2Z.id.
  rewrite nth_error_app2, Nat.sub_diag by lia. split; [reflexivity|].
  replace (Z.to_nat (Z.max 0 (Z.of_nat (length front))))
    with (length front + 0)%nat by lia.
  rewrite firstn_app_2. cbn [firstn]. apply app_nil_r.
Qed.

Lemma item_empty (i : Z) : item [] i = Raise IndexError.
Proof.
  unfold item.
  destruct ((0 <=? (if i <? 0 then len [] + i else i))
            && ((if i <? 0 then len [] + i else i) <? len []));
    [|reflexivity].
  destruct (Z.to_nat (if i <? 0 then len [] + i else i)); reflexivity.
Qed.

Lemma endswith_last (front : str) (c x : char) :
  endswith (front ++ [c]) [x] = char_eqb c x.
Proof.
  destruct (char_eqb c x) eqn:E.
  - apply char_eqb_eq in E. subst. apply endswith_suffix.
    exists front. reflexivity.
  - destruct (endswith (front ++ [c]) [x]) eqn:F; [|reflexivity].
    apply endswith_suffix in F. destruct F as [f F].
    apply app_inj_tail in F. destruct F as [_ ->].
    unfold char_eqb in E. rewrite N.eqb_refl in E. discriminate.
Qed.

Lemma del_slash_raises (dirs : list str) :
  In [] dirs -> del_slash dirs = Raise IndexError.
Proof.
  induction dirs as [|d dirs IH]; [intros []|].
  intros [-> | Hin]; cbn [del_slash].
  - rewrite item_empty. reflexivity.
  - destruct (item d (-1)) as [c|[]] eqn:E; cbn [bind]; try reflexivity.
    + rewrite (IH Hin). reflexivity.
    + destruct d as [|c d]; [rewrite item_empty in E; discriminate|].
      destruct (exists_last (l := c :: d)) as [front [x Hd]]; [discriminate|].
      rewrite Hd in E. rewrite (proj1 (item_last front x)) in E. discriminate.
    + destruct d as [|c d]; [rewrite item_empty in E; discriminate|].
      destruct (exists_last (l := c :: d)) as [front [x Hd]]; [discriminate|].
      rewrite Hd in E. rewrite (proj1 (item_last front x)) in E. discriminate.
Qed.

Lemma del_slash_returns (dirs : list str) :
  ~ In [] dirs ->
  exists out, del_slash dirs = Ok out /\ Forall2 del_slash_one_spec dirs out.
Proof.
  induction dirs as [|d dirs IH]; intros Hne.
  - exists []. split; [reflexivity | constructor].
  - destruct IH as [out [Hout Hall]]; [intros H; apply Hne; right; exact H|].
    destruct d as [|c d]; [exfalso; apply Hne; left; reflexivity|].
    destruct (exists_last (l := c :: d)) as [front [x Hd]]; [discriminate|].
    rewrite Hd. cbn [del_slash].
    destruct (item_last front x) as [-> ->]. cbn [bind]. rewrite Hout.
    cbn [bind]. eexists. split; [reflexivity|]. constructor; [|exact Hall].
    unfold del_slash_one_spec.
    change (lit "/") with [47%N]. rewrite endswith_last.
    destruct (char_eqb x 47%N) eqn:E; [|reflexivity].
    apply char_eqb_eq in E. subst. reflexivity.
Qed.

(** X1.  [del_slash] raises [IndexError] exactly when one of the
    directories is the empty string; otherwise it returns a list of the
    same length where each directory lost its last character if that was a
    slash, one slash only, and is unchanged if not. *)
Theorem del_slash_cases (dirs : list str) :
  match del_slash dirs with
  | Raise e => e = IndexError /\ In [] dirs
  | Ok out =>
      ~ In [] dirs
      /\ length out = length dirs
      /\ Forall2 del_slash_one_spec dirs out
  end.
Proof.
  destruct (in_dec (list_eq_dec N.eq_dec) [] dirs) as [Hin | Hne].
  - rewrite (del_slash_raises dirs Hin). auto.
  - destruct (del_slash_returns dirs Hne) as [out [-> Hall]].
    split; [exact Hne|]. split; [|exact Hall].
    symmetry. exact (Forall2_length Hall).
Qed.

Lemma del_slash_one_prefix (dir_ out : str) :
  del_slash_one_spec dir_ out -> exists rest, dir_ = out ++ rest.
Proof.
  unfold del_slash_one_spec. destruct (endswith dir_ (lit "/")).
  - intros ->. eexists. reflexivity.
  - intros ->. exists []. symmetry. apply app_nil_r.
Qed.

(** X2.  Taking the trailing slash off the exclusions never lets a path
    through: for directories that are not empty, every path excluded by the
    list as given is excluded by the list [del_slash] returns. *)
Theorem del_slash_keeps_exclusions (dirs : list str)
  (Hne : ~ In [] dirs) :
  exists out,
    del_slash dirs = Ok out
    /\ forall file,
         should_be_excluded file (ExList dirs) = true ->
         should_be_excluded file (ExList out) = true.
Proof.
  destruct (del_slash_returns dirs Hne) as [out [Hout Hall]].
  exists out. split; [exact Hout|]. intros file.
  rewrite !should_be_excluded_list, !existsb_exists.
  intros [d [Hin Hpre]]. clear Hout Hne.
  induction Hall as [|d0 o dirs out Hone Hall IH]; [destruct Hin|].
  destruct Hin as [-> | Hin].
  - exists o. split; [left; reflexivity|].
    apply del_slash_one_prefix in Hone. destruct Hone as [rest ->].
    apply startswith_prefix in Hpre. destruct Hpre as [rest' ->].
    apply startswith_prefix. exists (rest ++ rest').
    symmetry. apply app_assoc.
  - destruct (IH Hin) as [o' [Hin' Hpre']].
    exists o'. split; [right; exact Hin' | exact Hpre'].
Qed.

Lemma del_slash_keeps_exclusions_witness :
  let dirs := [lit "/root/skip/"; lit "/a"] in
  ~ In [] dirs
  /\ del_slash dirs = Ok [lit "/root/skip"; lit "/a"]
  /\ exists out,
       del_slash dirs = Ok out
       /\ forall file,
            should_be_excluded file (ExList dirs) = true ->
            should_be_excluded file (ExList out) = true.
Proof.
  intros dirs.
  assert (Hne : ~ In [] dirs).
  { intros [H | [H | []]]; discriminate. }
  split; [exact Hne|]. split; [reflexivity|].
  exact (del_slash_keeps_exclusions dirs Hne).
Defined.

(** ** The walk *)

Lemma DirEntry_induction (P : DirEntry -> Prop) :
  (forall name, P (File name)) ->
  (forall name entries, Forall P entries -> P (Dir name entries)) ->
  forall entry, P entry.
Proof.
  intros Hfile Hdir. fix IH 1. intros [name | name entries].
  - apply Hfile.
  - apply Hdir. induction entries as [|e entries IHentries];
      constructor; [apply IH | exact IHentries].
Qed.

(** The walk of a directory entry is the walk of its own entries. *)
Lemma find_entry_dir (abspath : str -> str) (self : CodeFinder)
  (indir : str) (excludes : excludes_arg) (name : str)
  (entries : list DirEntry) :
  find_entry abspath self indir excludes (Dir name entries)
  = (hidden <- is_hidden_file name ;;
     if hidden then Ok []
     else if should_be_excluded (abspath (path_join indir name)) excludes
          then Ok []
          else find abspath self (abspath (path_join indir name)) entries
                    excludes).
Proof.
  cbn [find_entry entry_name].
  destruct (is_hidden_file name) as [[|]|e]; cbn [bind]; try reflexivity.
  destruct (should_be_excluded (abspath (path_join indir name)) excludes);
    [reflexivity|].
  induction entries as [|e entries IH]; [reflexivity|].
  cbn [find]. rewrite <- IH. reflexivity.
Qed.

Lemma is_hidden_file_nonempty (name : str) :
  eqb name [] = false -> exists hidden, is_hidden_file name = Ok hidden.
Proof.
  destruct name as [|c name]; [discriminate|]. intros _.
  eexists. reflexivity.
Qed.

Section WalkProperties.

Variable abspath : str -> str.
Variable self : CodeFinder.
Variable excludes : excludes_arg.

Lemma find_list_selects (entries : list DirEntry) :
  Forall (entry_walk_ok abspath self excludes) entries ->
  forallb names_nonempty entries = true ->
  forall indir,
    exists files,
      find abspath self indir entries excludes = Ok files
      /\ forall path,
           In path files
           <-> exists entry,
                 In entry entries
                 /\ selected abspath self excludes indir entry path.
Proof.
  induction 1 as [|e entries He Hall IH]; intros Hnames indir.
  - exists []. split; [reflexivity|]. intros path. split; [intros []|].
    intros [entry [[] _]].
  - cbn [forallb] in Hnames. apply andb_true_iff in Hnames.
    destruct Hnames as [Hne Hnes].
    destruct (He Hne indir) as [found [Hfound Hsel]].
    destruct (IH Hnes indir) as [files [Hfiles Hsels]].
    exists (found ++ files). cbn [find]. rewrite Hfound. cbn [bind].
    rewrite Hfiles. cbn [bind]. split; [reflexivity|].
    intros path. rewrite in_app_iff, Hsel, Hsels. split.
    + intros [H | [entry [Hin H]]].
      * exists e. split; [left; reflexivity | exact H].
      * exists entry. split; [right; exact Hin | exact H].
    + intros [entry [[<- | Hin] H]].
      * left. exact H.
      * right. exists entry. split; [exact Hin | exact H].
Qed.

Lemma find_entry_selects (entry : DirEntry) :
  entry_walk_ok abspath self excludes entry.
Proof.
  induction entry as [name | name entries IH] using DirEntry_induction;
    intros Hnames indir.
  - cbn [names_nonempty] in Hnames. apply negb_true_iff in Hnames.
    destruct (is_hidden_file_nonempty name Hnames) as [hidden Hhidden].
    cbn [find_entry entry_name]. rewrite Hhidden. cbn [bind].
    destruct hidden.
    { exists []. split; [reflexivity|]. intros path.
      split; [intros [] | intros H; inversion H; congruence]. }
    destruct (should_be_excluded (abspath (path_join indir name)) excludes)
      eqn:Hex.
    { exists []. split; [reflexivity|]. intros path.
      split; [intros [] | intros H; inversion H; congruence]. }
    destruct (is_code self name) eqn:Hcode.
    + eexists. split; [reflexivity|]. intros path. split.
      * intros [<- | []]. constructor; assumption.
      * intros H. inversion H. left. reflexivity.
    + exists []. split; [reflexivity|]. intros path.
      split; [intros [] | intros H; inversion H; congruence].
  - cbn [names_nonempty] in Hnames. apply andb_true_iff in Hnames.
    destruct Hnames as [Hname Hnames]. apply negb_true_iff in Hname.
    destruct (is_hidden_file_nonempty name Hname) as [hidden Hhidden].
    rewrite find_entry_dir, Hhidden. cbn [bind].
    destruct hidden.
    { exists []. split; [reflexivity|]. intros path.
      split; [intros [] | intros H; inversion H; congruence]. }
    destruct (should_be_excluded (abspath (path_join indir name)) excludes)
      eqn:Hex.
    { exists []. split; [reflexivity|]. intros path.
      split; [intros [] | intros H; inversion H; congruence]. }
    destruct (find_list_selects entries IH Hnames
                (abspath (path_join indir name))) as [files [Hfiles Hsel]].
    exists files. split; [exact Hfiles|]. intros path. rewrite Hsel. split.
    + intros [entry [Hin H]].
      exact (selected_in_dir _ _ _ _ _ _ _ _ Hhidden Hex Hin H).
    + intros H. inversion H; subst. eexists. split; eassumption.
Qed.

Lemma selected_not_excluded (indir : str) (entry : DirEntry) (path : str) :
  selected abspath self excludes indir entry path ->
  should_be_excluded path excludes = false.
Proof. induction 1; assumption. Qed.

End WalkProperties.

(** X3.  The walk of a directory whose entries all have a name returns,
    and the paths it returns are exactly those of the files it reaches and
    keeps: a file is kept when its name is not hidden, its path is not
    excluded and its name ends with an extension, and it is reached when
    that holds of no directory above it either, hidden and excluded
    directories being skipped with all they hold; the names of directories
    are not matched against the extensions. *)
Theorem find_returns_selected (abspath : str -> str) (self : CodeFinder)
  (indir : str) (entries : list DirEntry) (excludes : excludes_arg)
  (Hnames : forallb names_nonempty entries = true) :
  exists files,
    find abspath self indir entries excludes = Ok files
    /\ forall path,
         In path files
         <-> exists entry,
               In entry entries
               /\ selected abspath self excludes indir entry path.
Proof.
  apply find_list_selects; [|exact Hnames].
  apply Forall_forall. intros entry _. apply find_entry_selects.
Qed.

Lemma find_returns_selected_witness :
  let self := CodeFinder_init None in
  forallb names_nonempty Sample.tree = true
  /\ find Fixture.abspath self (lit "/work") Sample.tree (ExList [])
     = Ok [ lit "/work/pkg/core.py"; lit "/work/pkg/sub/deep.py";
            lit "/work/old.py/legacy.py"; lit "/work/setup.py" ]
  /\ exists files,
       find Fixture.abspath self (lit "/work") Sample.tree (ExList [])
       = Ok files
       /\ forall path,
            In path files
            <-> exists entry,
                  In entry Sample.tree
                  /\ selected Fixture.abspath self (ExList []) (lit "/work")
                               entry path.
Proof.
  intros self. split; [reflexivity|]. split; [reflexivity|].
  apply (find_returns_selected Fixture.abspath self (lit "/work")
           Sample.tree (ExList [])).
  reflexivity.
Defined.

(** X4.  No path returned by the walk is excluded: none has an exclusion
    as a prefix. *)
Theorem find_returns_no_excluded_path (abspath : str -> str)
  (self : CodeFinder) (indir : str) (entries : list DirEntry)
  (excludes : excludes_arg)
  (Hnames : forallb names_nonempty entries = true) :
  exists files,
    find abspath self indir entries excludes = Ok files
    /\ forall path,
         In path files -> should_be_excluded path excludes = false.
Proof.
  destruct (find_list_selects abspath self excludes entries) with (indir := indir)
    as [files [Hfiles Hsel]].
  - apply Forall_forall. intros entry _. apply find_entry_selects.
  - exact Hnames.
  - exists files. split; [exact Hfiles|]. intros path Hin.
    apply Hsel in Hin. destruct Hin as [entry [_ H]].
    exact (selected_not_excluded _ _ _ _ _ _ H).
Qed.

Lemma find_returns_no_excluded_path_witness :
  let self := CodeFinder_init None in
  let excludes := ExList [lit "/work/pkg/s"; lit "/work/old"] in
  forallb names_nonempty Sample.tree = true
  /\ find Fixture.abspath self (lit "/work") Sample.tree excludes
     = Ok [ lit "/work/pkg/core.py"; lit "/work/setup.py" ]
  /\ exists files,
       find Fixture.abspath self (lit "/work") Sample.tree excludes = Ok files
       /\ forall path,
            In path files -> should_be_excluded path excludes = false.
Proof.
  intros self excludes. split; [reflexivity|]. split; [reflexivity|].
  apply (find_returns_no_excluded_path Fixture.abspath self (lit "/work")
           Sample.tree excludes).
  reflexivity.
Defined.

(** ** The classifier *)

Lemma scan_multiline_pairs_hit (self : CodeWriter) (pairs : list (str * str))
  (line : str) :
  match scan_multiline_pairs self pairs line with
  | Some r =>
      existsb (fun p => contains line (fst p)) pairs = true /\ fst r = true
  | None => existsb (fun p => contains line (fst p)) pairs = false
  end.
Proof.
  induction pairs as [|[start_char end_char] pairs IH];
    cbn [scan_multiline_pairs existsb fst]; [reflexivity|].
  assert (Hc : contains line start_char
               = match PyStr.find line start_char with
                 | Some _ => true
                 | None => false
                 end) by reflexivity.
  rewrite Hc. clear Hc.
  destruct (PyStr.find line start_char) as [index|].
  - destruct (contains (slice_from line (Z.of_nat index + len start_char))
                end_char); split; reflexivity.
  - exact IH.
Qed.

(** X5.  What [is_comment_line] returns.  With the comment state open it
    returns [True] for every line.  With the state none it returns [True]
    exactly when the line holds a start delimiter of the table anywhere,
    code before it or not, or starts, once stripped on the left, with a
    single-line comment prefix.  So a line that starts with a comment
    prefix is a comment in every state. *)
Theorem is_comment_line_result (self : CodeWriter) (line : str) :
  fst (is_comment_line self line)
  = match current_comment_pair self with
    | Some _ => true
    | None =>
        existsb (fun p => contains (lstrip line) (fst p))
                (multiline_comment_pairs self)
        || comment_prefixed self line
    end
  /\ (comment_prefixed self line = true ->
      fst (is_comment_line self line) = true).
Proof.
  assert (H : fst (is_comment_line self line)
              = match current_comment_pair self with
                | Some _ => true
                | None =>
                    existsb (fun p => contains (lstrip line) (fst p))
                            (multiline_comment_pairs self)
                    || comment_prefixed self line
                end).
  { unfold is_comment_line.
    destruct (current_comment_pair self) as [[start_char end_char]|].
    - destruct (contains (lstrip line) end_char); reflexivity.
    - pose proof (scan_multiline_pairs_hit self (multiline_comment_pairs self)
                    (lstrip line)) as Hscan.
      destruct (scan_multiline_pairs self (multiline_comment_pairs self)
                  (lstrip line)) as [r|].
      + destruct Hscan as [-> ->]. reflexivity.
      + rewrite Hscan. reflexivity. }
  split; [exact H|]. intros Hprefix. rewrite H, Hprefix.
  destruct (current_comment_pair self); [reflexivity | apply orb_true_r].
Qed.

Lemma comment_prefixed_is_comment (self : CodeWriter) (line : str) :
  comment_prefixed self line = true ->
  fst (is_comment_line self line) = true.
Proof.
  intros Hprefix. unfold is_comment_line.
  destruct (current_comment_pair self) as [[start_char end_char]|].
  - destruct (contains (lstrip line) end_char); reflexivity.
  - destruct (scan_multiline_pairs self (multiline_comment_pairs self)
                (lstrip line)) as [r|] eqn:S.
    + exact (scan_multiline_pairs_true _ _ _ _ S).
    + exact Hprefix.
Qed.

(** [is_comment_line] returns the writer with some comment state and
    nothing else changed. *)
Lemma is_comment_line_sets_state (self : CodeWriter) (line : str) :
  exists q, snd (is_comment_line self line) = set_current_comment_pair self q.
Proof.
  destruct (is_comment_line_frame self line) as [-> | [q ->]].
  - exists (current_comment_pair self). destruct self. reflexivity.
  - exists q. reflexivity.
Qed.

(** A raw line that is blank or starts with a comment prefix is dropped. *)
Lemma write_line_dropped (self : CodeWriter) (raw : str) :
  blank_or_prefixed self raw = true ->
  exists q, write_line self raw = Ok (set_current_comment_pair self q).
Proof.
  unfold blank_or_prefixed, write_line. intros H.
  destruct (is_blank_line (rstrip raw)).
  - exists (current_comment_pair self). destruct self. reflexivity.
  - cbn [orb] in H.
    pose proof (comment_prefixed_is_comment self (rstrip raw) H) as Hc.
    destruct (is_comment_line_sets_state self (rstrip raw)) as [q Hq].
    destruct (is_comment_line self (rstrip raw)) as [b self1].
    cbn [fst snd] in Hc, Hq. subst. exists q. reflexivity.
Qed.

Lemma write_lines_dropped (lines : list str) :
  forall self,
    forallb (blank_or_prefixed self) lines = true ->
    exists q, write_lines self lines = Ok (set_current_comment_pair self q).
Proof.
  induction lines as [|raw lines IH]; intros self Hall.
  - exists (current_comment_pair self). destruct self. reflexivity.
  - cbn [forallb] in Hall. apply andb_true_iff in Hall.
    destruct Hall as [Hraw Hall].
    destruct (write_line_dropped self raw Hraw) as [q Hq].
    cbn [write_lines]. rewrite Hq. cbn [bind].
    destruct (IH (set_current_comment_pair self q) Hall) as [q' Hq'].
    exists q'. rewrite Hq'. reflexivity.
Qed.

(** X6.  A file whose lines are all blank or start with a single-line
    comment prefix adds nothing: [write_file] returns the writer with the
    document, the counter and the options as they were, whatever the width
    (0 included) and whatever the comment state before; only the comment
    state can differ, when such a line opened a block comment. *)
Theorem comment_only_file_adds_nothing (self : CodeWriter) (file : list str)
  (Hfile : forallb (blank_or_prefixed self) file = true) :
  exists q,
    write_file self file = Ok (set_current_comment_pair self q)
    /\ document (set_current_comment_pair self q) = document self
    /\ total_paragraph_count (set_current_comment_pair self q)
       = total_paragraph_count self.
Proof.
  unfold write_file.
  destruct (write_lines_dropped file (set_current_comment_pair self None) Hfile)
    as [q Hq].
  exists q. rewrite Hq. repeat split.
Qed.

Lemma comment_only_file_adds_nothing_witness :
  let self := CodeWriter_init None None 0 true in
  let file := [ lit "# a comment"; lit "   "; lit "  // see /* below";
                lit "# still inside"; lit "" ] in
  forallb (blank_or_prefixed self) file = true
  /\ chars_in_line self = 0
  /\ write_file self file
     = Ok (set_current_comment_pair self (Some (lit "/*", lit "*/")))
  /\ exists q,
       write_file self file = Ok (set_current_comment_pair self q)
       /\ document (set_current_comment_pair self q) = document self
       /\ total_paragraph_count (set_current_comment_pair self q)
          = total_paragraph_count self.
Proof.
  intros self file. split; [reflexivity|]. split; [reflexivity|].
  split; [reflexivity|].
  apply (comment_only_file_adds_nothing self file). reflexivity.
Defined.







(** X8.  A block comment that is never closed takes the rest of the file:
    with the comment state open, lines none of which holds the end
    delimiter are all dropped and the writer stays as it is, whatever the
    lines are and whatever the width. *)
Theorem unterminated_comment_drops_rest (self : CodeWriter)
  (start_char end_char : str) (lines : list str)
  (Hopen : current_comment_pair self = Some (start_char, end_char))
  (Hlines : forallb (fun raw => negb (contains (lstrip (rstrip raw)) end_char))
                    lines = true) :
  write_lines self lines = Ok self.
Proof.
  induction lines as [|raw lines IH]; [reflexivity|].
  cbn [forallb] in Hlines. apply andb_true_iff in Hlines.
  destruct Hlines as [Hraw Hlines]. apply negb_true_iff in Hraw.
  cbn [write_lines]. unfold write_line.
  destruct (is_blank_line (rstrip raw)); cbn [bind]; [exact (IH Hlines)|].
  rewrite (is_comment_line_open self start_char end_char (rstrip raw) Hopen),
    Hraw.
  cbn [bind]. exact (IH Hlines).
Qed.

Lemma unterminated_comment_drops_rest_witness :
  let self := Fixture.open_writer in
  let lines := [lit "x = 1"; lit ""; lit "def g():"; lit "    return 2"] in
  current_comment_pair self = Some (lit "/*", lit "*/")
  /\ forallb (fun raw => negb (contains (lstrip (rstrip raw)) (lit "*/")))
             lines = true
  /\ write_lines self lines = Ok self.
Proof.
  intros self lines. split; [reflexivity|]. split; [reflexivity|].
  apply (unterminated_comment_drops_rest self (lit "/*") (lit "*/") lines);
    reflexivity.
Defined.

Lemma lstrip_leading_whitespace (ws line : str) :
  forallb isspace ws = true -> lstrip (ws ++ line) = lstrip line.
Proof.
  induction ws as [|c ws IH]; [reflexivity|]. cbn [forallb app lstrip].
  intros H. apply andb_true_iff in H. destruct H as [-> H]. exact (IH H).
Qed.

Lemma rstrip_trailing_whitespace (line ws : str) :
  forallb isspace ws = true -> rstrip (line ++ ws) = rstrip line.
Proof.
  intros H. induction line as [|c line IH].
  - exact (rstrip_whitespace ws H).
  - cbn [app rstrip]. rewrite IH. reflexivity.
Qed.

(** X9.  Whitespace at the end of a line, the line end included, has no
    effect on what [write_file] does with the line, and whitespace at its
    start has no effect on whether it is a comment nor on the comment state
    it leaves. *)
Theorem surrounding_whitespace_is_ignored (self : CodeWriter)
  (line ws : str) (Hws : forallb isspace ws = true) :
  write_line self (line ++ ws) = write_line self line
  /\ is_comment_line self (ws ++ line) = is_comment_line self line.
Proof.
  split.
  - unfold write_line. rewrite (rstrip_trailing_whitespace line ws Hws).
    reflexivity.
  - unfold is_comment_line. rewrite (lstrip_leading_whitespace ws line Hws).
    reflexivity.
Qed.

Lemma surrounding_whitespace_is_ignored_witness :
  let self := CodeWriter_init None None 30 false in
  let line := lit "    x = 1  # set" in
  let ws := [32%N; 9%N; 13%N; 10%N] in
  forallb isspace ws = true
  /\ write_line self (line ++ ws) = write_line self line
  /\ is_comment_line self (ws ++ line) = is_comment_line self line.
Proof.
  intros self line ws. split; [reflexivity|].
  apply (surrounding_whitespace_is_ignored self line ws). reflexivity.
Defined.

(** ** The layout of a code line *)








(** X13.  A writer made with the width 0 raises [ZeroDivisionError] at
    the first code line: the lines before it that are blank or comments
    are passed, and the write pass of the file stops there. *)
Theorem zero_width_raises_at_first_code_line (self : CodeWriter)
  (raw : str) (lines : list str)
  (Hwidth : chars_in_line self = 0)
  (Hblank : is_blank_line (rstrip raw) = false)
  (Hcode : fst (is_comment_line self (rstrip raw)) = false) :
  write_line self raw = Raise ZeroDivisionError
  /\ write_lines self (raw :: lines) = Raise ZeroDivisionError.
Proof.
  assert (H : write_line self raw = Raise ZeroDivisionError).
  { rewrite (write_line_code self raw Hblank Hcode).
    unfold write_code_line, ceil_div. rewrite Hwidth. reflexivity. }
  split; [exact H|]. cbn [write_lines]. rewrite H. reflexivity.
Qed.

Lemma zero_width_raises_at_first_code_line_witness :
  let self := CodeWriter_init None None 0 false in
  let raw := lit "x = 1" in
  chars_in_line self = 0
  /\ is_blank_line (rstrip raw) = false
  /\ fst (is_comment_line self (rstrip raw)) = false
  /\ write_file self [lit "# header"; lit ""; raw; lit "y = 2"]
     = Raise ZeroDivisionError
  /\ write_line self raw = Raise ZeroDivisionError
  /\ write_lines self [raw; lit "y = 2"] = Raise ZeroDivisionError.
Proof.
  intros self raw.
  split; [reflexivity|]. split; [reflexivity|]. split; [reflexivity|].
  split; [reflexivity|].
  apply (zero_width_raises_at_first_code_line self raw [lit "y = 2"]);
    reflexivity.
Defined.

Lemma write_line_negative_width (self : CodeWriter) (raw : str) :
  chars_in_line self < 0 ->
  exists q, write_line self raw = Ok (set_current_comment_pair self q).
Proof.
  intros Hneg. unfold write_line.
  destruct (is_blank_line (rstrip raw)).
  { exists (current_comment_pair self). destruct self. reflexivity. }
  destruct (is_comment_line_sets_state self (rstrip raw)) as [q Hq].
  destruct (is_comment_line self (rstrip raw)) as [b self1].
  cbn [snd] in Hq. subst self1. exists q.
  destruct b; [reflexivity|].
  unfold write_code_line, ceil_div.
  change (chars_in_line (set_current_comment_pair self q))
    with (chars_in_line self).
  destruct (Z.eqb_spec (chars_in_line self) 0) as [H|_]; [lia|].
  cbn [bind].
  assert (Hq : 0 <= - len (rstrip raw) / chars_in_line self).
  { rewrite <- (Z.opp_involutive (chars_in_line self)), Z.div_opp_opp by lia.
    apply Z.div_pos; unfold len; lia. }
  unfold range.
  replace (Z.to_nat (- (- len (rstrip raw) / chars_in_line self)))
    with 0%nat by lia.
  reflexivity.
Qed.

(** X14.  A writer made with a width below 0 writes nothing: [write_file]
    returns for every file, with the document, the counter and the options
    as they were, the code lines passed over without a paragraph. *)
Theorem negative_width_writes_nothing (self : CodeWriter) (file : list str)
  (Hneg : chars_in_line self < 0) :
  exists q,
    write_file self file = Ok (set_current_comment_pair self q)
    /\ document (set_current_comment_pair self q) = document self
    /\ total_paragraph_count (set_current_comment_pair self q)
       = total_paragraph_count self.
Proof.
  unfold write_file.
  assert (H : forall lines self0,
             chars_in_line self0 < 0 ->
             exists q, write_lines self0 lines
                       = Ok (set_current_comment_pair self0 q)).
  { induction lines as [|raw lines IH]; intros self0 H0.
    - exists (current_comment_pair self0). destruct self0. reflexivity.
    - destruct (write_line_negative_width self0 raw H0) as [q Hq].
      cbn [write_lines]. rewrite Hq. cbn [bind].
      destruct (IH (set_current_comment_pair self0 q) H0) as [q' Hq'].
      exists q'. rewrite Hq'. reflexivity. }
  destruct (H file (set_current_comment_pair self None) Hneg) as [q Hq].
  exists q. rewrite Hq. repeat split.
Qed.

Lemma negative_width_writes_nothing_witness :
  let self := CodeWriter_init None None (-30) true in
  chars_in_line self < 0
  /\ exists q,
       write_file self Sample.file = Ok (set_current_comment_pair self q)
       /\ document (set_current_comment_pair self q) = document self
       /\ total_paragraph_count (set_current_comment_pair self q)
          = total_paragraph_count self.
Proof.
  intros self. split; [reflexivity|].
  apply (negative_width_writes_nothing self Sample.file). reflexivity.
Defined.

(** ** The run *)

Lemma walk_indirs_returns (abspath : str -> str)
  (scandir : str -> list DirEntry) (finder : CodeFinder)
  (indirs excludes : list str) :
  (forall d, forallb names_nonempty (scandir d) = true) ->
  exists files, walk_indirs abspath scandir finder indirs excludes = Ok files.
Proof.
  intros Hnames. induction indirs as [|indir indirs [files IH]].
  - exists []. reflexivity.
  - destruct (find_list_selects abspath finder (ExList excludes)
                (scandir indir)) with (indir := indir) as [found [Hfound _]].
    + apply Forall_forall. intros entry _. apply find_entry_selects.
    + apply Hnames.
    + exists (found ++ files). cbn [walk_indirs].
      rewrite Hfound. cbn [bind]. rewrite IH. reflexivity.
Qed.




Lemma place_entry_file_head (abspath : str -> str) (c : char) (p : str)
  (files : list str) :
  exists rest,
    place_entry_file abspath (Some (c :: p)) files
    = Ok (abspath (c :: p) :: rest).
Proof.
  unfold place_entry_file.
  destruct (list_contains files (abspath (c :: p))) eqn:E.
  - apply list_contains_In in E.
    destruct (list_remove_first files _ E) as [before [after [_ [_ ->]]]].
    eexists. reflexivity.
  - eexists. reflexivity.
Qed.

(** X16.  The entry file passes no filter.  When no entry under the roots
    has an empty name and no exclusion has an empty absolute path, the
    selection returns a list that starts with the absolute path of the
    entry file, whatever the extensions and the exclusions are and whether
    the walk reached the file or not: a hidden or excluded entry file, one
    outside the roots or one with another extension is selected all the
    same. *)
Theorem entry_file_passes_no_filter (abspath : str -> str)
  (scandir : str -> list DirEntry) (indirs exts excludes : list str)
  (c : char) (p : str)
  (Hnames : forall d, forallb names_nonempty (scandir d) = true)
  (Hexcludes : ~ In [] (map abspath excludes)) :
  exists rest,
    select_files abspath scandir indirs exts excludes (Some (c :: p))
    = Ok (abspath (c :: p) :: rest).
Proof.
  unfold select_files.
  assert (Hdel : exists out,
             del_slash match excludes with
                       | [] => []
                       | _ :: _ => map abspath excludes
                       end = Ok out).
  { destruct excludes as [|e excludes']; [exists []; reflexivity|].
    destruct (del_slash_returns _ Hexcludes) as [out [Hout _]].
    exists out. exact Hout. }
  destruct Hdel as [out ->]. cbn [bind].
  destruct (walk_indirs_returns abspath scandir
              (CodeFinder_init
                 (Some match exts with [] => DEFAULT_EXTS | _ :: _ => exts end))
              (map abspath
                   match indirs with [] => DEFAULT_INDIRS | _ :: _ => indirs end)
              out Hnames) as [files ->].
  cbn [bind]. apply place_entry_file_head.
Qed.

Lemma entry_file_passes_no_filter_witness :
  (forall d, forallb names_nonempty (Sample.scandir d) = true)
  /\ ~ In [] (map Fixture.abspath [lit "/work/pkg"])
  /\ select_files Fixture.abspath Sample.scandir [lit "/work"] [lit "py"]
       [lit "/work/pkg"] (Some (lit "/work/.git/README"))
     = Ok [ lit "/work/.git/README"; lit "/work/old.py/legacy.py";
            lit "/work/setup.py" ]
  /\ exists rest,
       select_files Fixture.abspath Sample.scandir [lit "/work"] [lit "py"]
         [lit "/work/pkg"] (Some (lit "/work/.git/README"))
       = Ok (Fixture.abspath (lit "/work/.git/README") :: rest).
Proof.
  assert (Hnames : forall d, forallb names_nonempty (Sample.scandir d) = true).
  { intros d. unfold Sample.scandir. destruct (eqb d (lit "/work"));
      reflexivity. }
  assert (Hex : ~ In [] (map Fixture.abspath [lit "/work/pkg"])).
  { intros [H | []]. discriminate. }
  split; [exact Hnames|]. split; [exact Hex|]. split; [reflexivity|].
  exact (entry_file_passes_no_filter Fixture.abspath Sample.scandir
           [lit "/work"] [lit "py"] [lit "/work/pkg"] 47%N
           (List.tl (lit "/work/.git/README")) Hnames Hex).
Defined.
